(** * wxSidViewer: a shallow embedding of [supersid/wxsidviewer.py]

    The viewer is glue between a GUI toolkit (wx), a plotting library
    (matplotlib) and the SuperSID controller.  The embedding keeps the
    control flow of every method the properties below talk about and
    threads an explicit [World] through them: the two-field status bar,
    the queue of calls posted with [wx.CallAfter], the subscription to the
    "update" topic and a trace of the calls made to the collaborators.

    Routines of the toolkit whose results the viewer only consumes
    ([SetIcon], [canvas.draw], [axes.psd], the [%] formatting of floats)
    are Section variables: the theorems hold for every behaviour of
    theirs.  Values a modal dialog returns are arguments of the handler
    that opens the dialog. *)

From Stdlib Require Import ZArith List String Ascii Bool Lia.
From Stdlib Require Import Reals Lra.
From stdpp Require Import base list.

Import ListNotations.
Local Open Scope string_scope.
Local Open Scope Z_scope.

(** ** Python strings *)

Module PyStr.

(** [s.rstrip(c)]: remove every trailing occurrence of the character [c]. *)
Fixpoint rstrip (c : ascii) (s : string) : string :=
  match s with
  | EmptyString => EmptyString
  | String a s' =>
      match rstrip c s' with
      | EmptyString => if Ascii.eqb a c then EmptyString else String a EmptyString
      | r => String a r
      end
  end.

(** [s.endswith(c)] for a one-character suffix. *)
Fixpoint ends_with (c : ascii) (s : string) : bool :=
  match s with
  | EmptyString => false
  | String a EmptyString => Ascii.eqb a c
  | String _ s' => ends_with c s'
  end.

(** [sep.join(l)]. *)
Definition join (sep : string) (l : list string) : string :=
  String.concat sep l.

(** Every character of the text is in the ASCII range (below 128). *)
Fixpoint is_ascii (s : string) : bool :=
  match s with
  | EmptyString => true
  | String (Ascii _ _ _ _ _ _ _ b7) s' => negb b7 && is_ascii s'
  end.

End PyStr.

(** ** Exceptions, outcomes and the state-and-exception monad *)

Inductive exn : Type :=
| SystemExit (code : Z)          (* raised by the builtin [exit(code)] *)
| PyDeadObjectError              (* wx: method called on a destroyed widget *)
| PyAssertionError               (* wx: a failed toolkit assertion *)
| TypeError
| OtherError (name : string).    (* any other exception class *)

Definition is_PyDeadObjectError (e : exn) : bool :=
  match e with PyDeadObjectError => true | _ => false end.

Inductive Outcome (A : Type) : Type :=
| Return (a : A)
| Raise (e : exn).
Arguments Return {A} a.
Arguments Raise {A} e.

(** What the status bar is asked to show: a status string or some other
    (structured) object. *)
Inductive payload : Type :=
| Text (s : string)
| Data (tag : nat).

(** A call posted with [wx.CallAfter(callable, *args)]. *)
Inductive deferred : Type :=
| CallStatusDisplay (message : payload)
    (* wx.CallAfter(self.status_display, message) *)
| CallSendMessage (topic : string) (message : payload).
    (* wx.CallAfter(Publisher().sendMessage, topic, message) *)

(** Calls made to the collaborators, in the order they are made. *)
Inductive effect : Type :=
| FrameInit (title : string)          (* wx.Frame.__init__(self, ..., title, ...) *)
| FrameShow                           (* self.Show() *)
| FrameClose (force : bool)           (* self.Close(force) *)
| FrameDestroy                        (* default handling of a close event *)
| ControllerOnClose                   (* self.controller.on_close() *)
| PlotFilelist (filelist : string).   (* SSP.SUPERSID_PLOT().plot_filelist(filelist) *)

Record World : Type := mkWorld {
  status_bar : list string;     (* the fields of self.status_bar *)
  close_bound : bool;           (* EVT_CLOSE is bound to self.on_close *)
  subscribed : bool;            (* self.updateDisplay listens on "update" *)
  on_ui_thread : bool;          (* the running code is on the UI thread *)
  pending : list deferred;      (* calls posted with wx.CallAfter, oldest first *)
  trace : list effect           (* calls made to the collaborators, oldest first *)
}.

Definition M (A : Type) : Type := World -> Outcome A * World.

Definition ret {A} (a : A) : M A := fun w => (Return a, w).

Definition raise {A} (e : exn) : M A := fun w => (Raise e, w).

Definition bind {A B} (m : M A) (k : A -> M B) : M B :=
  fun w =>
    match m w with
    | (Return a, w') => k a w'
    | (Raise e, w') => (Raise e, w')
    end.

Declare Scope py_scope.
Delimit Scope py_scope with py.
Notation "x <- m ;; k" := (bind m (fun x => k))
  (at level 100, m at next level, right associativity) : py_scope.
Notation "m ;; k" := (bind m (fun _ => k))
  (at level 100, right associativity) : py_scope.
Local Open Scope py_scope.

(** [try: body / except: handler] -- the bare [except] catches every
    exception, [SystemExit] included. *)
Definition try_except_all {A} (body handler : M A) : M A :=
  fun w =>
    match body w with
    | (Return a, w') => (Return a, w')
    | (Raise _, w') => handler w'
    end.

(** [try: body / except C: handler] where [catches e] says that [e] is an
    instance of [C]. *)
Definition try_except {A} (body : M A) (catches : exn -> bool) (handler : M A) : M A :=
  fun w =>
    match body w with
    | (Return a, w') => (Return a, w')
    | (Raise e, w') => if catches e then handler w' else (Raise e, w')
    end.

(** [try: body / finally: final] -- [final] runs on both exits; an
    exception of [body] is raised again once [final] has completed. *)
Definition try_finally {A} (body : M A) (final : M unit) : M A :=
  fun w =>
    match body w with
    | (r, w') =>
        match final w' with
        | (Return _, w'') => (r, w'')
        | (Raise e', w'') => (Raise e', w'')
        end
    end.

(** The builtin [exit(code)]. *)
Definition exit {A} (code : Z) : M A := raise (SystemExit code).

(** Exit status of the interpreter when a main program ends with the given
    outcome: an uncaught [SystemExit(code)] ends the process with [code]. *)
Definition exit_status {A} (r : Outcome A) : Z :=
  match r with
  | Return _ => 0
  | Raise (SystemExit code) => code
  | Raise _ => 1
  end.

(** [str(u)] on a text object: the interpreter encodes it with the ASCII
    codec, which returns the same characters for an ASCII text and raises
    [UnicodeEncodeError] for any other. *)
Definition py_str (u : string) : M string :=
  fun w =>
    if PyStr.is_ascii u then (Return u, w)
    else (Raise (OtherError "UnicodeEncodeError"), w).

(** Field updates of the world. *)
Definition set_status_bar (b : list string) (w : World) : World :=
  mkWorld b (close_bound w) (subscribed w) (on_ui_thread w) (pending w) (trace w).
Definition set_close_bound (c : bool) (w : World) : World :=
  mkWorld (status_bar w) c (subscribed w) (on_ui_thread w) (pending w) (trace w).
Definition set_subscribed (s : bool) (w : World) : World :=
  mkWorld (status_bar w) (close_bound w) s (on_ui_thread w) (pending w) (trace w).
Definition set_on_ui_thread (u : bool) (w : World) : World :=
  mkWorld (status_bar w) (close_bound w) (subscribed w) u (pending w) (trace w).
Definition set_pending (q : list deferred) (w : World) : World :=
  mkWorld (status_bar w) (close_bound w) (subscribed w) (on_ui_thread w) q (trace w).
Definition set_trace (t : list effect) (w : World) : World :=
  mkWorld (status_bar w) (close_bound w) (subscribed w) (on_ui_thread w) (pending w) t.

Definition modify (f : World -> World) : M unit := fun w => (Return tt, f w).

Definition log (e : effect) : M unit :=
  modify (fun w => set_trace (trace w ++ [e]) w).

(** ** The toolkit *)

Module wx.

(** [wx.CallAfter(callable, *args)]: post the call; the event loop runs
    it later, on the UI thread. *)
Definition CallAfter (d : deferred) : M unit :=
  modify (fun w => set_pending (pending w ++ [d]) w).

(** [status_bar.SetStatusText(message, field)]: the text must be a
    string and the field one of the fields of the bar. *)
Definition SetStatusText (message : payload) (field : Z) : M unit :=
  fun w =>
    match message with
    | Text s =>
        if (0 <=? field) && (field <? Z.of_nat (length (status_bar w)))
        then (Return tt, set_status_bar (<[Z.to_nat field := s]> (status_bar w)) w)
        else (Raise PyAssertionError, w)
    | Data _ => (Raise TypeError, w)
    end.

(** [self.CreateStatusBar()] followed by [SetFieldsCount(n)]. *)
Definition SetFieldsCount (n : nat) : M unit :=
  modify (set_status_bar (replicate n "")).

(** [self.Bind(wx.EVT_CLOSE, self.on_close)]. *)
Definition Bind_EVT_CLOSE : M unit := modify (set_close_bound true).

(** [Publisher().subscribe(self.updateDisplay, "update")]. *)
Definition subscribe_update : M unit := modify (set_subscribed true).

End wx.

(** The message object a pubsub listener receives. *)
Record Message : Type := mkMessage { topic : string; data : payload }.

(** A matplotlib mouse event; the coordinates are idealised as reals. *)
Record MouseEvent : Type := mkMouseEvent { inaxes : bool; xdata : R; ydata : R }.

(** ** The viewer *)

Section wxSidViewer.

(** Constants of the toolkit. *)
Variables wx_YES wx_NO wx_CANCEL wx_ID_YES wx_ID_OK : Z.

(** [self.SetIcon(wx.Icon("supersid_icon.png", wx.BITMAP_TYPE_PNG))]. *)
Variable SetIcon : M unit.

(** [self.canvas.draw()]. *)
Variable canvas_draw : M unit.

(** [self.axes.psd(data, NFFT=NFFT, Fs=FS)]. *)
Variables Samples Power Freqs : Type.
Variable axes_psd : Samples -> Z -> Z -> M (Power * Freqs).

(** ["%.<digits>f" % x]. *)
Variable format_f : nat -> R -> string.

Definition status_display (message : payload) (level : Z) (field : Z) : M unit :=
  if level =? 1 then
    wx.CallAfter (CallStatusDisplay message)
  else if level =? 2 then
    wx.CallAfter (CallSendMessage "update" message)
  else
    wx.SetStatusText message field.

Definition updateDisplay (msg : Message) : M unit :=
  try_except_all
    (canvas_draw ;;
     status_display (data msg) 0 0)
    (ret tt).

(** [Publisher().sendMessage(topic, message)]: the viewer is the only
    listener, on "update". *)
Definition sendMessage (topic : string) (message : payload) : M unit :=
  fun w =>
    if subscribed w && String.eqb topic "update"
    then updateDisplay (mkMessage topic message) w
    else (Return tt, w).

(** The event loop runs a posted call on the UI thread;
    [self.status_display] is called with the posted argument alone. *)
Definition run_deferred (d : deferred) : M unit :=
  modify (set_on_ui_thread true) ;;
  match d with
  | CallStatusDisplay message => status_display message 0 0
  | CallSendMessage topic message => sendMessage topic message
  end.

(** One turn of the event loop on the queue of posted calls. *)
Definition process_pending : M unit :=
  fun w =>
    match pending w with
    | [] => (Return tt, w)
    | d :: q => run_deferred d (set_pending q w)
    end.

Definition on_close : M unit :=
  log ControllerOnClose.

(** [self.Close(force)]: the close event goes to the bound handler, or
    to the default one, which destroys the frame. *)
Definition Close (force : bool) : M unit :=
  log (FrameClose force) ;;
  fun w => if close_bound w then on_close w else log FrameDestroy w.

(** [answer] is what [dlg.ShowModal()] returns. *)
Definition on_exit (answer : Z) : M unit :=
  status_display (Text "This is supersid signing off...") 0 0 ;;
  if answer =? wx_ID_YES then Close true else ret tt.

(** [str(filelist + "../Data/" + s + ",")] where [s] is the value of
    [str(u_filename)]: the sum of byte strings is a byte string, which the
    outer [str] returns as it is. *)
Definition add_file (filelist u_filename : string) : string :=
  filelist ++ "../Data/" ++ u_filename ++ ",".

(** The loop of [on_plot_files]: each name is converted with [str] and
    added to the list; a failing conversion ends the loop. *)
Fixpoint filelist_loop (filenames : list string) (filelist : string) : M string :=
  match filenames with
  | [] => ret filelist
  | u_filename :: rest =>
      s <- py_str u_filename ;;
      filelist_loop rest (add_file filelist s)
  end.

(** What the loop and the [rstrip] after it give on names that [str]
    returns unchanged. *)
Definition filelist_of (filenames : list string) : string :=
  let filelist := fold_left add_file filenames "" in
  PyStr.rstrip "," filelist.

(** [answer] is what [filedialog.ShowModal()] returns and [filenames]
    what [filedialog.GetFilenames()] returns. *)
Definition on_plot_files (answer : Z) (filenames : list string) : M unit :=
  if answer =? wx_ID_OK then
    filelist <- filelist_loop filenames "" ;;
    let filelist := PyStr.rstrip "," filelist in
    log (PlotFilelist filelist)
  else ret tt.

Definition click_message (xdata ydata strength : R) : string :=
  ("frequency=" ++ format_f 0 xdata ++ "  ")
  ++ (" power=" ++ format_f 3 ydata ++ "  ")
  ++ (" strength=" ++ format_f 0 strength).

(** [pow(10, (ydata/10.0))], with the floats idealised as reals: the
    value the code computes wherever [pow] does not overflow, that is for
    [ydata] up to about 3082. *)
Definition strength_of (ydata : R) : R := Rpower 10 (ydata / 10).

Definition on_click (event : MouseEvent) : M unit :=
  if inaxes event then
    let strength := strength_of (ydata event) in
    let message := click_message (xdata event) (ydata event) strength in
    status_display (Text message) 0 1
  else ret tt.

(** [status] is what [wx.MessageBox(message, sender, ...)] returns. *)
Definition display_message (message sender : string) (status : Z) : Z :=
  if status =? wx_YES then 1
  else if status =? wx_NO then 1
  else if status =? wx_CANCEL then 1
  else 0.

Definition get_psd (data : Samples) (NFFT FS : Z) : M (Power * Freqs) :=
  r <- try_except (axes_psd data NFFT FS) is_PyDeadObjectError (exit 3) ;;
  let '(Pxx, freqs) := r in
  ret (Pxx, freqs).

(** The constructor, reduced to the steps that touch the world: frame
    (47-49), close binding (50), icon (53-56), status bar (104-105),
    show (111) and subscription (115).  The application object, the
    menus and their bindings, the panel, the canvas and the sizing calls
    (40-45, 58-101, 108-110) are left out: they come after the icon call
    or before the frame and change nothing the world records. *)
Definition __init__ (site_name : string) : M unit :=
  log (FrameInit ("supersid @ " ++ site_name)) ;;
  wx.Bind_EVT_CLOSE ;;
  try_finally SetIcon (ret tt) ;;
  wx.SetFieldsCount 2 ;;
  log FrameShow ;;
  wx.subscribe_update.

End wxSidViewer.

(** ** Vocabulary of the statements *)

(** A file name under the data directory. *)
Definition in_data (u_filename : string) : string := "../Data/" ++ u_filename.

(** The world before the constructor has run. *)
Definition blank : World := mkWorld [] false false true [] [].

(** A viewer built on site "lab" whose icon loaded. *)
Definition lab : World := snd (__init__ (ret tt) "lab" blank).

(** The effects a run added to the trace. *)
Definition added (before after : World) : list effect :=
  skipn (length (trace before)) (trace after).

(** An icon call that fails with [e]. *)
Definition broken_icon (e : exn) : M unit := raise e.

(** The file name has no comma in it. *)
Fixpoint no_comma (s : string) : bool :=
  match s with
  | EmptyString => true
  | String a s' => negb (Ascii.eqb a ",") && no_comma s'
  end.

(** A redraw that succeeds and leaves the world as it is. *)
Definition quiet_draw : M unit := ret tt.

(** ** Properties of the string operations *)

Module PyStrFacts.
Import PyStr.

Lemma append_empty_r (s : string) : s ++ "" = s.
Proof. induction s as [|a s IH]; simpl; [reflexivity | now rewrite IH]. Qed.

Lemma append_assoc (s t u : string) : (s ++ t) ++ u = s ++ t ++ u.
Proof. induction s as [|a s IH]; simpl; [reflexivity | now rewrite IH]. Qed.

Lemma append_eq_empty (s t : string) : s ++ t = "" -> s = "" /\ t = "".
Proof. destruct s; simpl; [tauto | discriminate]. Qed.

(** Stripping [c] after appending one more [c] strips that one too. *)
Lemma rstrip_snoc (c : ascii) (s : string) :
  rstrip c (s ++ String c "") = rstrip c s.
Proof.
  induction s as [|a s IH]; simpl.
  - now rewrite Ascii.eqb_refl.
  - now rewrite IH.
Qed.

(** Stripping stops inside [t] when something of [t] is left. *)
Lemma rstrip_app_keep (c : ascii) (s t : string) :
  rstrip c t <> "" -> rstrip c (s ++ t) = s ++ rstrip c t.
Proof.
  intros Ht. induction s as [|a s IH]; simpl; [reflexivity|].
  rewrite IH. destruct (s ++ rstrip c t) eqn:E; [|reflexivity].
  apply append_eq_empty in E. tauto.
Qed.

Lemma rstrip_no_trailing (c : ascii) (s : string) :
  ends_with c (rstrip c s) = false.
Proof.
  induction s as [|a s IH]; simpl; [reflexivity|].
  destruct (rstrip c s) as [|b r] eqn:E.
  - destruct (Ascii.eqb a c) eqn:Eac; simpl; [reflexivity | exact Eac].
  - exact IH.
Qed.

Lemma rstrip_id (c : ascii) (s : string) :
  ends_with c s = false -> rstrip c s = s.
Proof.
  induction s as [|a s IH]; simpl; [reflexivity|].
  destruct s as [|b s'].
  - intros ->. reflexivity.
  - intros H. rewrite (IH H). reflexivity.
Qed.

Lemma ends_with_app (c : ascii) (s t : string) :
  t <> "" -> ends_with c (s ++ t) = ends_with c t.
Proof.
  intros Ht. induction s as [|a s IH]; simpl; [reflexivity|].
  destruct (s ++ t) eqn:E; [|exact IH].
  apply append_eq_empty in E. tauto.
Qed.

Lemma ends_with_cons (c a : ascii) (s : string) :
  s <> "" -> ends_with c (String a s) = ends_with c s.
Proof. destruct s; [congruence | reflexivity]. Qed.

End PyStrFacts.

(** ** The file list of [on_plot_files] *)

Section Filelist.
Import PyStr PyStrFacts.

Lemma filelist_of_fold (filenames : list string) :
  filelist_of filenames = rstrip "," (fold_left add_file filenames "").
Proof. reflexivity. Qed.

Lemma rstrip_in_data (x : string) :
  rstrip "," (in_data x) = in_data (rstrip "," x).
Proof. unfold in_data. simpl. destruct (rstrip "," x); reflexivity. Qed.

Lemma in_data_nonempty (x : string) : in_data x <> "".
Proof. discriminate. Qed.

(** The separators are exactly those of [",".join]. *)
Lemma join_snoc (init : list string) (acc x : string) :
  acc ++ join "," (map in_data (init ++ [x])) = fold_left add_file init acc ++ in_data x.
Proof.
  revert acc. induction init as [|u init IH]; intros acc; [reflexivity|].
  cbn [fold_left]. rewrite <- IH. unfold add_file.
  change (join "," (map in_data ((u :: init) ++ [x])))
    with (String.concat "," (in_data u :: map in_data (init ++ [x]))).
  destruct (map in_data (init ++ [x])) as [|y l] eqn:E.
  - destruct init; discriminate.
  - unfold join, in_data. cbn [String.concat].
    now rewrite !append_assoc.
Qed.

(** What the loop and the [rstrip] compute on a non-empty selection. *)
Lemma filelist_of_snoc (init : list string) (last : string) :
  filelist_of (init ++ [last])
  = join "," (map in_data (init ++ [rstrip "," last])).
Proof.
  rewrite filelist_of_fold, fold_left_app. cbn [fold_left].
  change (join "," (map in_data (init ++ [rstrip "," last])))
    with ("" ++ join "," (map in_data (init ++ [rstrip "," last]))).
  rewrite join_snoc. unfold add_file at 1.
  change ("../Data/" ++ last ++ ",") with (in_data (last ++ ",")).
  rewrite rstrip_app_keep.
  - now rewrite rstrip_in_data, rstrip_snoc.
  - rewrite rstrip_in_data. apply in_data_nonempty.
Qed.

Lemma filelist_of_no_trailing_comma (filenames : list string) :
  ends_with "," (filelist_of filenames) = false.
Proof. rewrite filelist_of_fold. apply rstrip_no_trailing. Qed.

(** When the last name does not end in a comma the result is the join. *)
Lemma filelist_of_join (init : list string) (last : string) :
  ends_with "," last = false ->
  filelist_of (init ++ [last]) = join "," (map in_data (init ++ [last])).
Proof. intros H. now rewrite filelist_of_snoc, (rstrip_id _ _ H). Qed.

Lemma join_ends_with (init : list string) (last : string) :
  ends_with "," (join "," (map in_data (init ++ [last]))) = ends_with "," last.
Proof.
  change (join "," (map in_data (init ++ [last])))
    with ("" ++ join "," (map in_data (init ++ [last]))).
  rewrite join_snoc, ends_with_app by apply in_data_nonempty.
  unfold in_data. destruct last; reflexivity.
Qed.

(** On ASCII names every conversion returns the name and the loop is the
    plain accumulation. *)
Lemma filelist_loop_ascii (filenames : list string) (filelist : string) (w : World) :
  forallb is_ascii filenames = true ->
  filelist_loop filenames filelist w
  = (Return (fold_left add_file filenames filelist), w).
Proof.
  revert filelist. induction filenames as [|u rest IH]; intros filelist H.
  - reflexivity.
  - cbn [forallb] in H. apply andb_prop in H as [Hu Hrest].
    cbn [filelist_loop fold_left]. unfold bind, py_str. rewrite Hu.
    now apply IH.
Qed.

(** The first name that is not ASCII stops the loop with the error of its
    conversion. *)
Lemma filelist_loop_non_ascii (filenames : list string) (filelist : string) (w : World) :
  forallb is_ascii filenames = false ->
  filelist_loop filenames filelist w
  = (Raise (OtherError "UnicodeEncodeError"), w).
Proof.
  revert filelist. induction filenames as [|u rest IH]; intros filelist H.
  - discriminate.
  - cbn [forallb] in H. cbn [filelist_loop]. unfold bind, py_str.
    destruct (is_ascii u); [|reflexivity].
    now apply IH.
Qed.

Lemma on_plot_files_ascii (ID_OK : Z) (filenames : list string) (w : World) :
  forallb is_ascii filenames = true ->
  on_plot_files ID_OK ID_OK filenames w
  = (Return tt, set_trace (trace w ++ [PlotFilelist (filelist_of filenames)]) w).
Proof.
  intros H. unfold on_plot_files. rewrite Z.eqb_refl.
  unfold bind. now rewrite filelist_loop_ascii.
Qed.

End Filelist.

(** C4.  The file list the plotter receives is not always the comma join of
    the prefixed names: a selection whose last name ends in a comma loses
    that comma, so the plotter is handed the path of another file (the
    same string as for the selection without the comma).  On the
    selection of the specification the result is as stated. *)
Theorem on_plot_files_comma_name :
  snd (on_plot_files 5100 5100 ["a.csv"; "b.csv,"] lab)
  = set_trace (trace lab ++ [PlotFilelist "../Data/a.csv,../Data/b.csv"]) lab
  /\ PyStr.join "," (map in_data ["a.csv"; "b.csv,"]) = "../Data/a.csv,../Data/b.csv,"
  /\ filelist_of ["a.csv"; "b.csv,"] = filelist_of ["a.csv"; "b.csv"]
  /\ filelist_of ["a.csv"; "b.csv"] = "../Data/a.csv,../Data/b.csv".
Proof. repeat split; reflexivity. Qed.

(** C10.  The [rstrip] removes every trailing comma of the joined string:
    when the last selected name ends in a comma (the names being ASCII, so
    that every [str] conversion returns), the plotter receives the join of
    the prefixed names with all trailing commas of the last name removed,
    which has no trailing comma and differs from the join of the names as
    selected. *)
Theorem on_plot_files_strips_trailing_commas
    (ID_OK : Z) (init : list string) (last : string) (w : World) :
  forallb PyStr.is_ascii (init ++ [last]) = true ->
  PyStr.ends_with "," last = true ->
  let handed := PyStr.join "," (map in_data (init ++ [PyStr.rstrip "," last])) in
  on_plot_files ID_OK ID_OK (init ++ [last]) w
  = (Return tt, set_trace (trace w ++ [PlotFilelist handed]) w)
  /\ PyStr.ends_with "," (PyStr.rstrip "," last) = false
  /\ PyStr.ends_with "," handed = false
  /\ handed <> PyStr.join "," (map in_data (init ++ [last])).
Proof.
  intros Hascii Hlast handed. subst handed.
  rewrite <- filelist_of_snoc. repeat split.
  - now apply on_plot_files_ascii.
  - apply PyStrFacts.rstrip_no_trailing.
  - apply filelist_of_no_trailing_comma.
  - intros E.
    pose proof (filelist_of_no_trailing_comma (init ++ [last])) as H.
    rewrite E, join_ends_with in H. congruence.
Qed.

Lemma on_plot_files_strips_trailing_commas_witness :
  forallb PyStr.is_ascii (["a.csv"] ++ ["b.csv,,"]) = true
  /\ PyStr.ends_with "," "b.csv,," = true
  /\ on_plot_files 5100 5100 (["a.csv"] ++ ["b.csv,,"]) lab
     = (Return tt,
        set_trace (trace lab ++ [PlotFilelist "../Data/a.csv,../Data/b.csv"]) lab)
  /\ "../Data/a.csv,../Data/b.csv" <> "../Data/a.csv,../Data/b.csv,,".
Proof.
  pose proof (on_plot_files_strips_trailing_commas 5100 ["a.csv"] "b.csv,,"
                lab eq_refl eq_refl) as (Hrun & _ & _ & Hne).
  exact (conj eq_refl (conj eq_refl (conj Hrun Hne))).
Defined.

(** C2.  [display_message] returns 1 when the toolkit's result is YES, NO
    or CANCEL and 0 for every other result. *)
Theorem display_message_outcome
    (YES NO CANCEL : Z) (message sender : string) (status : Z) :
  display_message YES NO CANCEL message sender YES = 1
  /\ display_message YES NO CANCEL message sender NO = 1
  /\ display_message YES NO CANCEL message sender CANCEL = 1
  /\ display_message YES NO CANCEL message sender status
     = if (status =? YES) || (status =? NO) || (status =? CANCEL) then 1 else 0.
Proof.
  unfold display_message. rewrite !Z.eqb_refl.
  repeat split;
    repeat match goal with |- context [?a =? ?b] => destruct (a =? b) end;
    reflexivity.
Qed.

(** ** Exception guards *)

(** A [finally: pass] changes nothing: the guarded call behaves as if it
    were not guarded. *)
Lemma try_finally_pass {A} (body : M A) (w : World) :
  try_finally body (ret tt) w = body w.
Proof. unfold try_finally, ret. now destruct (body w). Qed.

(** A bare [except: pass] always completes. *)
Lemma try_except_all_pass (body : M unit) (w : World) :
  fst (try_except_all body (ret tt) w) = Return tt.
Proof.
  unfold try_except_all, ret.
  destruct (body w) as [[[]|e] w']; reflexivity.
Qed.

(** The constructor raises whatever the icon call raises. *)
Lemma init_raises_icon_error (SetIcon : M unit) (site_name : string)
    (e : exn) (w : World) :
  (forall w1, fst (SetIcon w1) = Raise e) ->
  fst (__init__ SetIcon site_name w) = Raise e.
Proof.
  intros H. unfold __init__, bind, log, wx.Bind_EVT_CLOSE, modify.
  rewrite try_finally_pass.
  match goal with |- context [SetIcon ?w1] =>
    specialize (H w1); destruct (SetIcon w1) as [[[]|e'] w2] end;
    simpl in H; [discriminate | exact H].
Qed.

(** When the icon loads, the constructor leaves a two-field status bar,
    the close handler bound and the viewer subscribed. *)
Lemma init_builds_viewer (site_name : string) (w : World) :
  let w' := snd (__init__ (ret tt) site_name w) in
  fst (__init__ (ret tt) site_name w) = Return tt
  /\ status_bar w' = [""; ""]
  /\ close_bound w' = true
  /\ subscribed w' = true.
Proof. repeat split. Qed.

(** C1.  A failure of the icon call is not swallowed by the constructor:
    the guard around it is [try ... finally: pass], so for every exception
    [e] the icon call raises, the constructor raises [e] to its caller
    and the status bar is never created. *)
Theorem init_icon_failure_propagates (e : exn) (site_name : string) :
  __init__ (broken_icon e) site_name blank
  = (Raise e,
     mkWorld [] true false true [] [FrameInit ("supersid @ " ++ site_name)]).
Proof. reflexivity. Qed.

(** C6.  [updateDisplay] never raises: whatever the redraw does (raise
    included) and whatever [status_display] does with the payload, the
    call returns normally. *)
Theorem updateDisplay_never_raises
    (canvas_draw : M unit) (msg : Message) (w : World) :
  fst (updateDisplay canvas_draw msg w) = Return tt.
Proof. unfold updateDisplay. apply try_except_all_pass. Qed.

(** The guard of [updateDisplay] is exercised: a failing redraw skips the
    status update, and a payload that is not a string fails in the status
    bar after the redraw; both calls return. *)
Lemma updateDisplay_swallows_examples (e : exn) :
  updateDisplay (raise e) (mkMessage "update" (Text "ok")) lab = (Return tt, lab)
  /\ updateDisplay (ret tt) (mkMessage "update" (Data 0)) lab = (Return tt, lab)
  /\ updateDisplay (ret tt) (mkMessage "update" (Text "ok")) lab
     = (Return tt, set_status_bar ["ok"; ""] lab).
Proof. repeat split. Qed.

(** C7.  [get_psd] returns the pair the plot surface's [psd] computes when
    that call succeeds; when the call raises the dead-object error it does
    not return: it leaves by [exit(3)], which ends the process with exit
    status 3. *)
Theorem get_psd_result_or_exit
    (Samples Power Freqs : Type) (axes_psd : Samples -> Z -> Z -> M (Power * Freqs))
    (data : Samples) (NFFT FS : Z) (w w' : World) :
  (forall Pxx freqs,
      axes_psd data NFFT FS w = (Return (Pxx, freqs), w') ->
      get_psd _ _ _ axes_psd data NFFT FS w = (Return (Pxx, freqs), w'))
  /\ (axes_psd data NFFT FS w = (Raise PyDeadObjectError, w') ->
      get_psd _ _ _ axes_psd data NFFT FS w = (Raise (SystemExit 3), w')
      /\ exit_status (fst (get_psd _ _ _ axes_psd data NFFT FS w)) = 3).
Proof.
  unfold get_psd, bind, try_except. split.
  - intros Pxx freqs ->. reflexivity.
  - intros ->. split; reflexivity.
Qed.

Lemma get_psd_result_or_exit_witness :
  get_psd nat (list Z) (list Z) (fun _ _ _ => ret ([1; 2], [0; 50])) 7%nat 1024 48000 lab
    = (Return ([1; 2], [0; 50]), lab)
  /\ get_psd nat (list Z) (list Z) (fun _ _ _ => raise PyDeadObjectError) 7%nat 1024 48000 lab
    = (Raise (SystemExit 3), lab).
Proof.
  split.
  - exact (proj1 (get_psd_result_or_exit nat (list Z) (list Z)
                    (fun _ _ _ => ret ([1; 2], [0; 50])) 7%nat 1024 48000 lab lab)
                 [1; 2] [0; 50] eq_refl).
  - exact (proj1 (proj2 (get_psd_result_or_exit nat (list Z) (list Z)
                    (fun _ _ _ => raise PyDeadObjectError) 7%nat 1024 48000 lab lab)
                  eq_refl)).
Defined.

(** ** The status bar and the posted calls *)

Lemma SetStatusText_in_range (s : string) (field : Z) (w : World) :
  0 <= field < Z.of_nat (length (status_bar w)) ->
  wx.SetStatusText (Text s) field w
  = (Return tt, set_status_bar (<[Z.to_nat field := s]> (status_bar w)) w).
Proof.
  intros [H0 H1]. unfold wx.SetStatusText.
  destruct (Z.leb_spec 0 field); [|lia].
  destruct (Z.ltb_spec field (Z.of_nat (length (status_bar w)))); [|lia].
  reflexivity.
Qed.

Lemma status_display_level0 (message : payload) (field : Z) :
  status_display message 0 field = wx.SetStatusText message field.
Proof. reflexivity. Qed.

Lemma added_app (w : World) (new : list effect) (w' : World) :
  trace w' = (trace w ++ new)%list -> added w w' = new.
Proof. unfold added. intros ->. apply drop_app_length. Qed.

(** C8.  In a constructed viewer the Quit handler forwards to the
    controller's [on_close] exactly when the confirmation dialog returns
    yes: then the frame is asked to close and the close handler calls the
    controller; on any other answer nothing is asked of the frame or of
    the controller. *)
Theorem on_exit_forwards_iff_yes (ID_YES answer : Z) (w : World) :
  (0 < length (status_bar w))%nat ->
  close_bound w = true ->
  let w' := snd (on_exit ID_YES answer w) in
  fst (on_exit ID_YES answer w) = Return tt
  /\ added w w' = (if answer =? ID_YES then [FrameClose true; ControllerOnClose] else [])
  /\ (In ControllerOnClose (added w w') <-> answer = ID_YES).
Proof.
  intros Hbar Hbound. unfold on_exit, bind.
  rewrite status_display_level0, SetStatusText_in_range by lia.
  destruct (Z.eqb_spec answer ID_YES) as [Heq|Hne]; cbn.
  - rewrite Hbound. cbn. repeat split.
    + apply added_app. cbn. now rewrite <- app_assoc.
    + intros _. exact Heq.
    + intros _. erewrite added_app; [|cbn; now rewrite <- app_assoc].
      right. now left.
  - repeat split.
    + apply added_app. cbn. now rewrite app_nil_r.
    + intros H. erewrite added_app in H; [|cbn; now rewrite app_nil_r].
      destruct H.
    + intros H. contradiction.
Qed.

Lemma on_exit_forwards_iff_yes_witness :
  (0 < length (status_bar lab))%nat
  /\ close_bound lab = true
  /\ added lab (snd (on_exit 5103 5103 lab)) = [FrameClose true; ControllerOnClose]
  /\ added lab (snd (on_exit 5103 5104 lab)) = [].
Proof.
  assert (Hbar : (0 < length (status_bar lab))%nat) by (cbn; lia).
  refine (conj Hbar (conj eq_refl (conj _ _))).
  - exact (proj1 (proj2 (on_exit_forwards_iff_yes 5103 5103 lab Hbar eq_refl))).
  - exact (proj1 (proj2 (on_exit_forwards_iff_yes 5103 5104 lab Hbar eq_refl))).
Defined.

(** C5.  [status_display] dispatches on the level.  Level 0 writes the
    text to the given field of the status bar and posts nothing.  Level 2
    posts a publication on "update", whatever the calling thread and the
    field; run by the event loop, the publication reaches [updateDisplay].
    Level 1 posts a call of [status_display]; nothing is written until
    the event loop runs that call, on the UI thread. *)
Theorem status_display_dispatch
    (canvas_draw : M unit) (message : payload) (field : Z) (w : World) :
  (forall s,
      message = Text s ->
      0 <= field < Z.of_nat (length (status_bar w)) ->
      status_display message 0 field w
      = (Return tt, set_status_bar (<[Z.to_nat field := s]> (status_bar w)) w))
  /\ (forall ui,
      status_display message 2 field (set_on_ui_thread ui w)
      = (Return tt,
         set_pending (pending w ++ [CallSendMessage "update" message])
                     (set_on_ui_thread ui w)))
  /\ (forall w2,
      subscribed w2 = true ->
      run_deferred canvas_draw (CallSendMessage "update" message) w2
      = updateDisplay canvas_draw (mkMessage "update" message) (set_on_ui_thread true w2))
  /\ status_display message 1 field w
     = (Return tt, set_pending (pending w ++ [CallStatusDisplay message]) w)
  /\ (forall w2,
      run_deferred canvas_draw (CallStatusDisplay message) w2
      = wx.SetStatusText message 0 (set_on_ui_thread true w2)).
Proof.
  repeat split.
  - intros s -> Hfield. now apply SetStatusText_in_range.
  - intros w2 Hsub. unfold run_deferred, bind, modify, sendMessage. cbn.
    now rewrite Hsub.
Qed.

Lemma status_display_dispatch_witness :
  status_display (Text "ready") 0 1 lab
  = (Return tt, set_status_bar [""; "ready"] lab)
  /\ run_deferred (ret tt) (CallSendMessage "update" (Text "ready")) lab
     = (Return tt, set_status_bar ["ready"; ""] lab).
Proof.
  pose proof (status_display_dispatch (ret tt) (Text "ready") 1 lab)
    as (H0 & _ & H2 & _).
  split.
  - apply (H0 "ready" eq_refl). cbn. lia.
  - rewrite (H2 lab eq_refl). reflexivity.
Defined.

(** C9.  At level 1 the field argument is dropped: the posted call has
    the message alone, so whatever field was asked for, the event loop
    writes the text to field 0 and leaves every other field as it was. *)
Theorem status_display_level1_drops_field
    (canvas_draw : M unit) (s : string) (field : Z) (w : World) :
  pending w = [] ->
  (0 < length (status_bar w))%nat ->
  status_display (Text s) 1 field w
  = (Return tt, set_pending [CallStatusDisplay (Text s)] w)
  /\ (status_display (Text s) 1 field ;; process_pending canvas_draw) w
     = (Return tt,
        set_on_ui_thread true (set_status_bar (<[0%nat := s]> (status_bar w)) w))
  /\ (0 < field ->
      <[0%nat := s]> (status_bar w) !! Z.to_nat field = status_bar w !! Z.to_nat field).
Proof.
  intros Hq Hbar. repeat split.
  - unfold status_display, wx.CallAfter, modify. cbn. now rewrite Hq.
  - unfold bind, status_display, wx.CallAfter, modify, process_pending. cbn.
    rewrite Hq. cbn. unfold run_deferred, bind, modify, status_display. cbn.
    destruct (Z.ltb_spec 0 (Z.of_nat (length (status_bar w)))); [|lia].
    destruct w; cbn in *. now subst.
  - intros Hf. apply list_lookup_insert_ne. lia.
Qed.

Lemma status_display_level1_drops_field_witness :
  pending lab = []
  /\ (0 < length (status_bar lab))%nat
  /\ (status_display (Text "late") 1 1 ;; process_pending (ret tt)) lab
     = (Return tt, set_status_bar ["late"; ""] lab).
Proof.
  assert (Hbar : (0 < length (status_bar lab))%nat) by (cbn; lia).
  refine (conj eq_refl (conj Hbar _)).
  exact (proj1 (proj2 (status_display_level1_drops_field
                         (ret tt) "late" 1 lab eq_refl Hbar))).
Defined.



(** ** Further properties of the file list *)

Section FilelistMore.
Import PyStr PyStrFacts.

Lemma no_comma_app (s t : string) :
  no_comma (s ++ t) = no_comma s && no_comma t.
Proof.
  induction s as [|a s IH]; simpl; [reflexivity|].
  now rewrite IH, andb_assoc.
Qed.

Lemma no_comma_ends_with (s : string) :
  no_comma s = true -> ends_with "," s = false.
Proof.
  induction s as [|a s IH]; simpl; [reflexivity|].
  intros H. apply andb_prop in H as [Ha Hs].
  destruct s as [|b s'].
  - now apply negb_true_iff in Ha.
  - now apply IH.
Qed.

Lemma in_data_no_comma (x : string) :
  no_comma (in_data x) = no_comma x.
Proof. reflexivity. Qed.

Lemma in_data_inj (x y : string) : in_data x = in_data y -> x = y.
Proof. unfold in_data. simpl. now intros [= ->]. Qed.

(** Two comma-free segments followed by a comma agree when the strings do. *)
Lemma segment_inj (x y r1 r2 : string) :
  no_comma x = true -> no_comma y = true ->
  x ++ String "," r1 = y ++ String "," r2 -> x = y /\ r1 = r2.
Proof.
  revert y. induction x as [|a x IH]; intros [|b y] Hx Hy; simpl in *.
  - now intros [= ->].
  - intros [= <- _]. discriminate Hy.
  - intros [= -> _]. discriminate Hx.
  - apply andb_prop in Hx as [_ Hx]. apply andb_prop in Hy as [_ Hy].
    intros [= -> E]. destruct (IH y Hx Hy E) as [-> ->]. now split.
Qed.

Lemma join_two (x y : string) (l : list string) :
  join "," (x :: y :: l) = x ++ String "," (join "," (y :: l)).
Proof. reflexivity. Qed.

(** The comma join is injective on non-empty lists of comma-free strings. *)
Lemma join_inj (l1 l2 : list string) :
  forallb no_comma l1 = true -> forallb no_comma l2 = true ->
  l1 <> [] -> l2 <> [] ->
  join "," l1 = join "," l2 -> l1 = l2.
Proof.
  revert l2. induction l1 as [|x l1 IH]; intros l2 H1 H2 N1 N2 E; [congruence|].
  destruct l2 as [|y l2]; [congruence|].
  cbn [forallb] in H1, H2.
  apply andb_prop in H1 as [Hx H1]. apply andb_prop in H2 as [Hy H2].
  destruct l1 as [|x' l1], l2 as [|y' l2].
  - cbn in E. now subst.
  - rewrite join_two in E. cbn [join String.concat] in E. subst x.
    rewrite no_comma_app in Hx. apply andb_prop in Hx as [_ Hx]. discriminate Hx.
  - rewrite join_two in E. cbn [join String.concat] in E. subst y.
    rewrite no_comma_app in Hy. apply andb_prop in Hy as [_ Hy]. discriminate Hy.
  - rewrite !join_two in E.
    destruct (segment_inj _ _ _ _ Hx Hy E) as [-> E'].
    f_equal. apply IH; congruence.
Qed.

Lemma map_in_data_inj (l1 l2 : list string) :
  map in_data l1 = map in_data l2 -> l1 = l2.
Proof.
  revert l2. induction l1 as [|x l1 IH]; intros [|y l2]; try discriminate.
  - reflexivity.
  - cbn [map]. intros [= Hxy E]. f_equal; [first [exact Hxy | now apply in_data_inj] | now apply IH].
Qed.

Lemma forallb_in_data (l : list string) :
  forallb no_comma (map in_data l) = forallb no_comma l.
Proof. induction l as [|x l IH]; [reflexivity|]. cbn. now rewrite IH. Qed.

(** A non-empty selection never gives the empty file list. *)
Lemma filelist_of_snoc_nonempty (init : list string) (last : string) :
  filelist_of (init ++ [last]) <> "".
Proof.
  rewrite filelist_of_snoc.
  change (join "," (map in_data (init ++ [rstrip "," last])))
    with ("" ++ join "," (map in_data (init ++ [rstrip "," last]))).
  rewrite join_snoc. intros E. apply append_eq_empty in E as [_ E].
  now apply in_data_nonempty in E.
Qed.

(** On comma-free names the file list is the comma join of the paths. *)
Lemma filelist_of_comma_free (l : list string) :
  l <> [] -> forallb no_comma l = true ->
  filelist_of l = join "," (map in_data l).
Proof.
  intros N H. destruct (exists_last N) as (init & last & ->).
  apply filelist_of_join, no_comma_ends_with.
  rewrite forallb_app in H. apply andb_prop in H as [_ H].
  cbn in H. now rewrite andb_true_r in H.
Qed.

End FilelistMore.

(** X1.  Two selections of names without commas that give the same file
    list are the same selection: the plotter can tell every such
    selection from every other. *)
Theorem filelist_of_injective (l1 l2 : list string) :
  forallb no_comma l1 = true ->
  forallb no_comma l2 = true ->
  filelist_of l1 = filelist_of l2 ->
  l1 = l2.
Proof.
  intros H1 H2 E.
  destruct l1 as [|x1 l1], l2 as [|x2 l2]; [reflexivity| | |].
  - exfalso. destruct (@exists_last _ (x2 :: l2)) as (i & a & Hl); [discriminate|].
    rewrite Hl in E. symmetry in E. now apply filelist_of_snoc_nonempty in E.
  - exfalso. destruct (@exists_last _ (x1 :: l1)) as (i & a & Hl); [discriminate|].
    rewrite Hl in E. now apply filelist_of_snoc_nonempty in E.
  - rewrite !filelist_of_comma_free in E by (assumption || discriminate).
    apply map_in_data_inj, join_inj; try (rewrite forallb_in_data; assumption);
      try discriminate; exact E.
Qed.

Lemma filelist_of_injective_witness :
  forallb no_comma ["a.csv"; "b.csv"] = true
  /\ forallb no_comma ["a.csv"; "b.csv"] = true
  /\ filelist_of ["a.csv"; "b.csv"] = filelist_of ["a.csv"; "b.csv"]
  /\ ["a.csv"; "b.csv"] = ["a.csv"; "b.csv"].
Proof.
  refine (conj eq_refl (conj eq_refl (conj eq_refl _))).
  exact (filelist_of_injective ["a.csv"; "b.csv"] ["a.csv"; "b.csv"]
           eq_refl eq_refl eq_refl).
Defined.

(** X2.  The file list is empty exactly for the empty selection, and an
    accepted dialog calls the plotter even then, with the empty string. *)
Theorem filelist_of_empty_iff (ID_OK : Z) (filenames : list string) (w : World) :
  (filelist_of filenames = "" <-> filenames = [])
  /\ on_plot_files ID_OK ID_OK [] w
     = (Return tt, set_trace (trace w ++ [PlotFilelist ""]) w).
Proof.
  split; [split|].
  - intros E. destruct filenames as [|x l]; [reflexivity|].
    destruct (@exists_last _ (x :: l)) as (i & a & Hl); [discriminate|].
    rewrite Hl in E. now apply filelist_of_snoc_nonempty in E.
  - now intros ->.
  - unfold on_plot_files. now rewrite Z.eqb_refl.
Qed.


(** X12.  A selection with a name that is not ASCII never reaches the
    plotter: the [str] conversion of that name raises
    [UnicodeEncodeError], the handler raises it to its caller and nothing
    is handed over, whatever the other names are. *)
Theorem on_plot_files_non_ascii
    (ID_OK : Z) (before after : list string) (name : string) (w : World) :
  PyStr.is_ascii name = false ->
  on_plot_files ID_OK ID_OK (before ++ name :: after) w
  = (Raise (OtherError "UnicodeEncodeError"), w).
Proof.
  intros Hname. unfold on_plot_files. rewrite Z.eqb_refl. unfold bind.
  rewrite filelist_loop_non_ascii; [reflexivity|].
  rewrite forallb_app. cbn [forallb]. rewrite Hname.
  now rewrite andb_false_r.
Qed.

Lemma on_plot_files_non_ascii_witness :
  PyStr.is_ascii (String (Ascii.ascii_of_nat 233) ".csv") = false
  /\ on_plot_files 5100 5100
       (["a.csv"] ++ String (Ascii.ascii_of_nat 233) ".csv" :: ["b.csv"]) lab
     = (Raise (OtherError "UnicodeEncodeError"), lab).
Proof.
  refine (conj eq_refl _).
  exact (on_plot_files_non_ascii 5100 ["a.csv"]
           ["b.csv"] (String (Ascii.ascii_of_nat 233) ".csv") lab eq_refl).
Defined.

(** ** Further properties of the guards *)

(** X3.  [get_psd] never raises the dead-object error, whatever the plot
    surface does: the only handler of the method turns it into an exit. *)
Theorem get_psd_never_dead_object
    (Samples Power Freqs : Type) (axes_psd : Samples -> Z -> Z -> M (Power * Freqs))
    (data : Samples) (NFFT FS : Z) (w : World) :
  fst (get_psd _ _ _ axes_psd data NFFT FS w) <> Raise PyDeadObjectError.
Proof.
  unfold get_psd, bind, try_except.
  destruct (axes_psd data NFFT FS w) as [[[Pxx freqs]|e] w']; cbn; [discriminate|].
  destruct e; cbn; discriminate.
Qed.

(** X4.  Every other exception of the plot surface's [psd] passes through
    [get_psd] unchanged, together with the world [psd] left. *)
Theorem get_psd_propagates_other_errors
    (Samples Power Freqs : Type) (axes_psd : Samples -> Z -> Z -> M (Power * Freqs))
    (data : Samples) (NFFT FS : Z) (e : exn) (w w' : World) :
  e <> PyDeadObjectError ->
  axes_psd data NFFT FS w = (Raise e, w') ->
  get_psd _ _ _ axes_psd data NFFT FS w = (Raise e, w').
Proof.
  intros He E. unfold get_psd, bind, try_except. rewrite E.
  destruct e; try reflexivity. congruence.
Qed.

Lemma get_psd_propagates_other_errors_witness :
  OtherError "ValueError" <> PyDeadObjectError
  /\ get_psd nat (list Z) (list Z) (fun _ _ _ => raise (OtherError "ValueError"))
       7%nat 0 48000 lab
     = (Raise (OtherError "ValueError"), lab).
Proof.
  assert (H : OtherError "ValueError" <> PyDeadObjectError) by discriminate.
  refine (conj H _).
  exact (get_psd_propagates_other_errors nat (list Z) (list Z)
           (fun _ _ _ => raise (OtherError "ValueError")) 7%nat 0 48000
           (OtherError "ValueError") lab lab H eq_refl).
Defined.

(** X5.  When the redraw fails, [updateDisplay] skips the status update:
    it returns with the world exactly as the redraw left it. *)
Theorem updateDisplay_failed_redraw
    (canvas_draw : M unit) (msg : Message) (e : exn) (w w1 : World) :
  canvas_draw w = (Raise e, w1) ->
  updateDisplay canvas_draw msg w = (Return tt, w1).
Proof.
  intros E. unfold updateDisplay, try_except_all, bind. now rewrite E.
Qed.

Lemma updateDisplay_failed_redraw_witness :
  raise PyDeadObjectError lab = (@Raise unit PyDeadObjectError, lab)
  /\ updateDisplay (raise PyDeadObjectError) (mkMessage "update" (Text "ok")) lab
     = (Return tt, lab).
Proof.
  refine (conj eq_refl _).
  exact (updateDisplay_failed_redraw (raise PyDeadObjectError)
           (mkMessage "update" (Text "ok")) PyDeadObjectError lab lab eq_refl).
Defined.

(** X6.  When the redraw succeeds and the payload is a string,
    [updateDisplay] writes it to field 0 of the status bar the redraw
    left, and changes nothing else. *)
Theorem updateDisplay_shows_text
    (canvas_draw : M unit) (top s : string) (w w1 : World) :
  canvas_draw w = (Return tt, w1) ->
  (0 < length (status_bar w1))%nat ->
  updateDisplay canvas_draw (mkMessage top (Text s)) w
  = (Return tt, set_status_bar (<[0%nat := s]> (status_bar w1)) w1).
Proof.
  intros E Hbar. unfold updateDisplay, try_except_all, bind. rewrite E.
  cbn [data]. rewrite status_display_level0, SetStatusText_in_range by lia.
  reflexivity.
Qed.

Lemma updateDisplay_shows_text_witness :
  quiet_draw lab = (Return tt, lab)
  /\ (0 < length (status_bar lab))%nat
  /\ updateDisplay quiet_draw (mkMessage "update" (Text "ok")) lab
     = (Return tt, set_status_bar ["ok"; ""] lab).
Proof.
  assert (Hbar : (0 < length (status_bar lab))%nat) by (cbn; lia).
  refine (conj eq_refl (conj Hbar _)).
  exact (updateDisplay_shows_text quiet_draw "update" "ok" lab lab eq_refl Hbar).
Defined.

(** ** Further properties of the status bar and the posted calls *)

(** X7.  A level 2 call followed by one turn of the event loop is one run
    of [updateDisplay] on the UI thread with the message as payload: the
    canvas is redrawn and the field argument plays no part.  The pair
    never raises. *)
Theorem status_display_level2_round
    (canvas_draw : M unit) (message : payload) (field : Z) (w : World) :
  pending w = [] ->
  subscribed w = true ->
  (status_display message 2 field ;; process_pending canvas_draw) w
  = updateDisplay canvas_draw (mkMessage "update" message) (set_on_ui_thread true w)
  /\ fst ((status_display message 2 field ;; process_pending canvas_draw) w)
     = Return tt.
Proof.
  intros Hq Hsub.
  assert (E : (status_display message 2 field ;; process_pending canvas_draw) w
              = updateDisplay canvas_draw (mkMessage "update" message)
                  (set_on_ui_thread true w)).
  { destruct w as [bar cb sub ui q t]. cbn in Hq, Hsub. subst q sub.
    reflexivity. }
  split; [exact E|]. rewrite E. apply try_except_all_pass.
Qed.

Lemma status_display_level2_round_witness :
  pending lab = []
  /\ subscribed lab = true
  /\ (status_display (Text "ready") 2 1 ;; process_pending quiet_draw) lab
     = (Return tt, set_status_bar ["ready"; ""] lab).
Proof.
  refine (conj eq_refl (conj eq_refl _)).
  exact (proj1 (status_display_level2_round quiet_draw (Text "ready") 1 lab
                  eq_refl eq_refl)).
Defined.



(** X10.  A click changes nothing but field 1 of the status bar: for
    every event and every world the queue, the trace, the number of
    fields and field 0 are as before, and a click outside the axes leaves
    the whole world as it is. *)
Theorem on_click_touches_field1_only
    (format_f : nat -> R -> string) (event : MouseEvent) (x y : R) (w : World) :
  pending (snd (on_click format_f event w)) = pending w
  /\ trace (snd (on_click format_f event w)) = trace w
  /\ length (status_bar (snd (on_click format_f event w))) = length (status_bar w)
  /\ status_bar (snd (on_click format_f event w)) !! 0%nat = status_bar w !! 0%nat
  /\ on_click format_f (mkMouseEvent false x y) w = (Return tt, w).
Proof.
  unfold on_click. destruct (inaxes event); [|repeat split].
  rewrite status_display_level0. unfold wx.SetStatusText.
  destruct ((0 <=? 1) && (1 <? Z.of_nat (length (status_bar w)))); cbn;
    repeat split; try reflexivity.
  - apply length_insert.
  - now apply list_lookup_insert_ne.
Qed.
